(** * Todo service: the resource handlers of [backend/routes/todo.py]

    The handlers are thin glue between the HTTP layer and one document
    collection.  They are embedded here as computations in a small
    state-and-exception monad over the state of that collection:
    Python dictionaries are finite maps from field names to values, a raised
    exception is an explicit outcome, and the storage accessor is a list of
    stored documents together with its five operations. *)

From Stdlib Require Import NArith Ascii String.
From Stdlib.Strings Require Import Byte.
From stdpp Require Import base option list gmap strings fin_maps.

Local Open Scope string_scope.
Local Open Scope list_scope.

(** ** Object identifiers ([bson.ObjectId]) *)

Module Hex.
Local Open Scope N_scope.

(** One lower-case hexadecimal digit, as [binascii.hexlify] prints it. *)
Definition hex_digit (n : N) : ascii :=
  match n with
  | 0 => "0" | 1 => "1" | 2 => "2" | 3 => "3"
  | 4 => "4" | 5 => "5" | 6 => "6" | 7 => "7"
  | 8 => "8" | 9 => "9" | 10 => "a" | 11 => "b"
  | 12 => "c" | 13 => "d" | 14 => "e" | _ => "f"
  end%char.

(** The value of a digit character; letters are accepted in both cases. *)
Definition digit_value (c : ascii) : option N :=
  let n := N_of_ascii c in
  if (48 <=? n) && (n <=? 57) then Some (n - 48)
  else if (97 <=? n) && (n <=? 102) then Some (n - 87)
  else if (65 <=? n) && (n <=? 70) then Some (n - 55)
  else None.

(** ASCII white space, which [bytes.fromhex] skips between bytes. *)
Definition is_space (c : ascii) : bool :=
  let n := N_of_ascii c in
  (n =? 32) || ((9 <=? n) && (n <=? 13)).

Definition hexlify_byte (b : byte) (rest : string) : string :=
  let n := Byte.to_N b in
  String (hex_digit (n / 16)) (String (hex_digit (n mod 16)) rest).

(** [binascii.hexlify(bs).decode()] *)
Fixpoint hexlify (bs : list byte) : string :=
  match bs with
  | [] => ""
  | b :: bs' => hexlify_byte b (hexlify bs')
  end.

(** [bytes.fromhex(s)]: pairs of hexadecimal digits, white space allowed
    between the pairs; [None] stands for the [ValueError]. *)
Fixpoint fromhex (s : string) : option (list byte) :=
  match s with
  | EmptyString => Some []
  | String c1 s1 =>
      if is_space c1 then fromhex s1
      else
        match s1 with
        | EmptyString => None
        | String c2 s2 =>
            match digit_value c1, digit_value c2 with
            | Some top, Some bot =>
                match Byte.of_N (top * 16 + bot), fromhex s2 with
                | Some b, Some bs => Some (b :: bs)
                | _, _ => None
                end
            | _, _ => None
            end
        end
  end.

End Hex.

(** An object identifier is its binary form (the [binary] attribute of
    [bson.ObjectId]); the identifiers the driver generates have 12 bytes. *)
Definition ObjectId := list byte.

#[global] Instance byte_eq_dec : EqDecision byte.
Proof.
  intros x y. destruct (decide (Byte.to_N x = Byte.to_N y)) as [E | E].
  - left. apply (f_equal Byte.of_N) in E. rewrite !Byte.of_to_N in E.
    congruence.
  - right. congruence.
Defined.

(** [ObjectId(id)] for [id : str]: the string must have 24 characters and be
    accepted by [bytes.fromhex]; otherwise [InvalidId] is raised, here [None]. *)
Definition parse_ObjectId (id : string) : option ObjectId :=
  if decide (String.length id = 24) then Hex.fromhex id else None.

(** [str(oid)] *)
Definition str_ObjectId (oid : ObjectId) : string := Hex.hexlify oid.

(** The identifiers produced by [ObjectId()]: 12 bytes. *)
Definition generated (oid : ObjectId) : Prop := length oid = 12.

#[global] Instance generated_dec oid : Decision (generated oid).
Proof. unfold generated. apply _. Defined.

Definition oid_sample : ObjectId :=
  [x65; x4a; x1f; x00; xab; xcd; xef; x01; x23; x45; x67; x89].

(** ** Values, dictionaries and request schemas *)

(** The values the handlers meet in a document: [None], a string, or an
    object identifier. *)
Inductive value :=
| VNone
| VStr (s : string)
| VOid (oid : ObjectId).

#[global] Instance value_eq_dec : EqDecision value.
Proof. solve_decision. Defined.

(** Python's [str(v)]. *)
Definition py_str (v : value) : string :=
  match v with
  | VNone => "None"
  | VStr s => s
  | VOid oid => str_ObjectId oid
  end.

(** A Python [dict] with string keys. *)
Abbreviation dict := (gmap string value).

(** [schemas/todomodel.py], class [Todo]. *)
Record Todo := {
  Todo_id : option string;
  Todo_title : string;
  Todo_description : string;
  Todo_deadline : string
}.

(** [schemas/todomodel.py], class [TodoUpdate]. *)
Record TodoUpdate := {
  TodoUpdate_title : string;
  TodoUpdate_description : string;
  TodoUpdate_deadline : string
}.

Definition value_of_optional (o : option string) : value :=
  match o with
  | None => VNone
  | Some s => VStr s
  end.

(** [dict(todo)] for a [Todo]: one entry per declared field, [id] included
    (with value [None] when the client sent none). *)
Definition dict_of_Todo (todo : Todo) : dict :=
  <["id" := value_of_optional (Todo_id todo)]>
    (<["title" := VStr (Todo_title todo)]>
       (<["description" := VStr (Todo_description todo)]>
          (<["deadline" := VStr (Todo_deadline todo)]> ∅))).

(** [dict(todo)] for a [TodoUpdate]. *)
Definition dict_of_TodoUpdate (todo : TodoUpdate) : dict :=
  <["title" := VStr (TodoUpdate_title todo)]>
    (<["description" := VStr (TodoUpdate_description todo)]>
       (<["deadline" := VStr (TodoUpdate_deadline todo)]> ∅)).

(** ** Exceptions and the handler monad *)

Inductive exn :=
| HTTPException (status_code : N) (detail : string)
| InvalidId (id : string)
| KeyError (key : string)
| TypeError
| DuplicateKeyError.

Inductive outcome (A : Type) :=
| Return (a : A)
| Raise (e : exn).
Arguments Return {A} a.
Arguments Raise {A} e.

(** Modelled from the spec: the persisted state behind the handle
    [collection] of [database/database.py], which is not part of the sources
    at hand.  It is one collection of documents, each with a storage
    identifier and its remaining fields. *)
Record document := {
  doc_id : value;
  doc_fields : dict
}.

(** The state of the collection: its documents in the order in which the
    store enumerates them. *)
Abbreviation collection := (list document).

(** A computation reads and writes the collection and either returns or
    raises. *)
Definition M (A : Type) : Type := collection → outcome A * collection.

#[global] Instance M_ret : MRet M := λ A a c, (Return a, c).

#[global] Instance M_bind : MBind M := λ A B k m c,
  match m c with
  | (Return a, c') => k a c'
  | (Raise e, c') => (Raise e, c')
  end.

Definition raise {A} (e : exn) : M A := λ c, (Raise e, c).

(** ** The storage accessor *)

Module Store.

(** The document a query hands to the caller: the stored fields together
    with the identifier under the key [_id]. *)
Definition to_dict (d : document) : dict :=
  <["_id" := doc_id d]> (doc_fields d).

(** The first document whose identifier is [v]. *)
Fixpoint find_first (v : value) (c : collection) : option document :=
  match c with
  | [] => None
  | d :: c' => if decide (doc_id d = v) then Some d else find_first v c'
  end.

(** [f] applied to the first document whose identifier is [v]. *)
Fixpoint update_first (v : value) (f : document → document)
    (c : collection) : collection :=
  match c with
  | [] => []
  | d :: c' =>
      if decide (doc_id d = v) then f d :: c'
      else d :: update_first v f c'
  end.

(** The collection without the first document whose identifier is [v]. *)
Fixpoint delete_first (v : value) (c : collection) : collection :=
  match c with
  | [] => []
  | d :: c' =>
      if decide (doc_id d = v) then c' else d :: delete_first v c'
  end.

(** The [$set] of the fields of [upd] on one document. *)
Definition apply_set (upd : dict) (d : document) : document :=
  {| doc_id := doc_id d; doc_fields := upd ∪ doc_fields d |}.

(** Modelled from the spec: the shared handle [collection] of
    [database/database.py], which is not part of the sources at hand.  The
    spec describes it as a document collection with the operations insert,
    find, find-one, update and delete, each keyed by the document
    identifier.  [find] retrieves every document, in the order of the
    store. *)
Definition find : M (list dict) :=
  λ c, (Return (to_dict <$> c), c).

(** Modelled from the spec: [collection.find_one({"_id": v})] looks up one
    document matching the identifier; absent is Python's [None]. *)
Definition find_one (v : value) : M (option dict) :=
  λ c, (Return (to_dict <$> find_first v c), c).

(** Modelled from the spec: [collection.insert_one(d)] stores the fields as
    a new document, under the identifier the storage layer assigns.
    [fresh] is the identifier the driver generates for a document that does
    not bring its own; an identifier already in use is refused.  The result
    is [inserted_id]. *)
Definition insert_one (fresh : ObjectId) (d : dict) : M value :=
  λ c,
    let v := default (VOid fresh) (d !! "_id") in
    match find_first v c with
    | Some _ => (Raise DuplicateKeyError, c)
    | None =>
        (Return v, c ++ [ {| doc_id := v; doc_fields := delete "_id" d |} ])
    end.

(** Modelled from the spec: [collection.update_one({"_id": v}, {"$set":
    upd})] sets the given fields on the matching document and is a no-op
    when the identifier matches nothing. *)
Definition update_one (v : value) (upd : dict) : M unit :=
  λ c, (Return (), update_first v (apply_set upd) c).

(** Modelled from the spec: [collection.delete_one({"_id": v})] removes
    the matching document; the result is [deleted_count]. *)
Definition delete_one (v : value) : M nat :=
  λ c,
    match find_first v c with
    | Some _ => (Return 1, delete_first v c)
    | None => (Return 0, c)
    end.

End Store.

(** ** The handlers of [routes/todo.py] *)

(** [ObjectId(id)]; a string that does not parse raises [InvalidId]. *)
Definition ObjectId_of_str (id : string) : M ObjectId :=
  match parse_ObjectId id with
  | Some oid => mret oid
  | None => raise (InvalidId id)
  end.

(** The two statements every handler runs on a fetched document:
    [todo["id"] = str(todo["_id"])] and [del todo["_id"]].  Reading a key
    that is absent raises [KeyError]. *)
Definition publish (todo : dict) : M dict :=
  match todo !! "_id" with
  | None => raise (KeyError "_id")
  | Some v => mret (delete "_id" (<["id" := VStr (py_str v)]> todo))
  end.

(** The same two statements on the result of [find_one]; subscripting
    [None] raises [TypeError]. *)
Definition subscript_publish (todo : option dict) : M dict :=
  match todo with
  | Some t => publish t
  | None => raise TypeError
  end.

(** Python's truth value of a [find_one] result: [None] and the empty
    dictionary are false. *)
Definition truthy (todo : option dict) : bool :=
  match todo with
  | None => false
  | Some t => bool_decide (t ≠ ∅)
  end.

Definition not_found {A} : M A :=
  raise (HTTPException 404%N "Todo not found").

(** The loop of [get_todos]: [todos] is the list built so far. *)
Fixpoint get_todos_loop (cursor : list dict) (todos : list dict)
    : M (list dict) :=
  match cursor with
  | [] => mret todos
  | todo :: cursor' =>
      todo' ← publish todo;
      get_todos_loop cursor' (todos ++ [todo'])
  end.

Definition get_todos : M (list dict) :=
  cursor ← Store.find;
  get_todos_loop cursor [].

Definition get_todo (id : string) : M dict :=
  oid ← ObjectId_of_str id;
  todo ← Store.find_one (VOid oid);
  if truthy todo then subscript_publish todo else not_found.

Definition create_todo (fresh : ObjectId) (todo : Todo) : M dict :=
  let todo_dict := dict_of_Todo todo in
  let todo_dict :=
    if decide (is_Some (todo_dict !! "id")) then delete "id" todo_dict
    else todo_dict in
  inserted_id ← Store.insert_one fresh todo_dict;
  new_todo ← Store.find_one inserted_id;
  subscript_publish new_todo.

Definition update_todo (id : string) (todo : TodoUpdate) : M dict :=
  let todo_dict := dict_of_TodoUpdate todo in
  oid ← ObjectId_of_str id;
  _ ← Store.update_one (VOid oid) todo_dict;
  oid' ← ObjectId_of_str id;
  updated_todo ← Store.find_one (VOid oid');
  if truthy updated_todo then subscript_publish updated_todo else not_found.

Definition delete_message : dict :=
  {["message" := VStr "Todo deleted successfully"]}.

Definition delete_todo (id : string) : M dict :=
  oid ← ObjectId_of_str id;
  deleted_count ← Store.delete_one (VOid oid);
  if decide (0 < deleted_count) then mret delete_message
  else not_found.

(** ** Derived notions used in the statements *)

(** The documents of [c] whose identifier is not [v], in order. *)
Definition others (v : value) (c : collection) : collection :=
  filter (λ d, doc_id d ≠ v) c.

(** The record a client sees for a stored document. *)
Definition public_record (d : document) : dict :=
  delete "_id" (<["id" := VStr (py_str (doc_id d))]> (Store.to_dict d)).

(** The three content fields of a payload. *)
Definition content_fields (title description deadline : string) : dict :=
  <["title" := VStr title]>
    (<["description" := VStr description]>
       (<["deadline" := VStr deadline]> ∅)).

(** The document [create_todo] stores for a payload. *)
Definition new_document (fresh : ObjectId) (todo : Todo) : document :=
  {| doc_id := VOid fresh;
     doc_fields := content_fields (Todo_title todo) (Todo_description todo)
                                  (Todo_deadline todo) |}.

Definition status_404 {A} : outcome A :=
  Raise (HTTPException 404%N "Todo not found").

(** A record carries the three content fields with the given values. *)
Definition has_content (r : dict) (title description deadline : string)
    : Prop :=
  r !! "title" = Some (VStr title)
  ∧ r !! "description" = Some (VStr description)
  ∧ r !! "deadline" = Some (VStr deadline).

(** A record shows the identifier [v] in string form under [id] and has no
    [_id] field. *)
Definition has_public_id (r : dict) (v : value) : Prop :=
  r !! "id" = Some (VStr (py_str v)) ∧ r !! "_id" = None.


Definition milk : Todo :=
  {| Todo_id := Some "mine";
     Todo_title := "Buy milk";
     Todo_description := "2%";
     Todo_deadline := "2024-01-01" |}.

Definition oat_milk : TodoUpdate :=
  {| TodoUpdate_title := "Buy oat milk";
     TodoUpdate_description := "2%";
     TodoUpdate_deadline := "2024-01-02" |}.

Definition oid_other : ObjectId :=
  [x00; x00; x00; x00; x00; x00; x00; x00; x00; x00; x00; x2a].

Definition sample_id : string := "654a1f00abcdef0123456789".
Definition other_id : string := "00000000000000000000002a".

(** A collection holding one todo, stored under [oid_sample]. *)
Definition one_todo : collection := [new_document oid_sample milk].

(** A collection holding two todos. *)
Definition two_todos : collection :=
  [new_document oid_sample milk; new_document oid_other milk].

(** ** Invariants of the collection *)

(** The identifiers of the stored documents, in the order of the store. *)
Definition stored_ids (c : collection) : list value := doc_id <$> c.

(** No two documents share an identifier. *)
Definition unique_ids (c : collection) : Prop := NoDup (stored_ids c).

(** Every identifier is an object id. *)
Definition object_ids (c : collection) : Prop :=
  Forall (λ d, ∃ oid : ObjectId, doc_id d = VOid oid) c.

(** A document that holds the three content fields and nothing else, the
    way [create_todo] writes it. *)
Definition todo_shaped (d : document) : Prop :=
  ∃ title description deadline : string,
    doc_fields d = content_fields title description deadline.

(** The document stored under [oid] with the content of an update payload. *)
Definition updated_document (oid : ObjectId) (todo : TodoUpdate) : document :=
  {| doc_id := VOid oid;
     doc_fields :=
       content_fields (TodoUpdate_title todo) (TodoUpdate_description todo)
                      (TodoUpdate_deadline todo) |}.

(** A record with exactly the four fields of the [Todo] schema, all strings. *)
Definition follows_schema (r : dict) : Prop :=
  ∃ s title description deadline : string,
    r = <["id" := VStr s]> (content_fields title description deadline).

(** The [id] fields of a list of records. *)
Definition record_ids (rs : list dict) : list (option value) :=
  (λ r : dict, r !! "id") <$> rs.

(** The names of the three content fields. *)
Definition content_keys : list string := ["title"; "description"; "deadline"].

(** A document that carries a field the service does not write, and the
    collection holding it. *)
Definition tagged_document : document :=
  {| doc_id := VOid oid_sample;
     doc_fields :=
       <["owner" := VStr "ann"]>
         (content_fields "Buy milk" "2%" "2024-01-01") |}.

Definition tagged_todo : collection := [tagged_document].

(** * Properties *)

(** ** Identifiers and their string form *)

Example str_sample : str_ObjectId oid_sample = "654a1f00abcdef0123456789".
Proof. reflexivity. Qed.

Example parse_sample :
  parse_ObjectId "654A1f00abcdef0123456789" = Some oid_sample.
Proof. vm_compute. reflexivity. Qed.

Example parse_short : parse_ObjectId "abc" = None.
Proof. reflexivity. Qed.

Example parse_nonhex : parse_ObjectId "zzzzzzzzzzzzzzzzzzzzzzzz" = None.
Proof. reflexivity. Qed.

Section hex_facts.
Import Hex.

Lemma fromhex_hexlify_byte (b : byte) (s : string) :
  fromhex (hexlify_byte b s) = (b ::.) <$> fromhex s.
Proof. destruct b; reflexivity. Qed.

Lemma fromhex_hexlify (bs : list byte) : fromhex (hexlify bs) = Some bs.
Proof.
  induction bs as [| b bs IH]; [reflexivity |].
  change (hexlify (b :: bs)) with (hexlify_byte b (hexlify bs)).
  rewrite fromhex_hexlify_byte, IH. reflexivity.
Qed.

Lemma length_hexlify (bs : list byte) :
  String.length (hexlify bs) = 2 * length bs.
Proof.
  induction bs as [| b bs IH]; [reflexivity |].
  cbn [hexlify hexlify_byte String.length length]. rewrite IH. lia.
Qed.
End hex_facts.

(** A generated identifier is read back from its string form. *)
Lemma parse_str_ObjectId (oid : ObjectId) :
  generated oid → parse_ObjectId (str_ObjectId oid) = Some oid.
Proof.
  unfold generated, parse_ObjectId, str_ObjectId. intros Hlen.
  rewrite length_hexlify, Hlen. apply fromhex_hexlify.
Qed.

Lemma str_ObjectId_nonempty (oid : ObjectId) :
  generated oid → str_ObjectId oid ≠ "".
Proof.
  unfold generated, str_ObjectId. intros Hlen Hnil.
  pose proof (length_hexlify oid) as L. rewrite Hnil, Hlen in L. discriminate.
Qed.

(** ** The store *)

Section store_facts.
Import Store.
Implicit Types (c : collection) (d : document) (v w : value).

Lemma find_first_Some v c d : find_first v c = Some d → doc_id d = v ∧ d ∈ c.
Proof.
  induction c as [| e c IH]; cbn; [discriminate |].
  destruct (decide (doc_id e = v)) as [E | E].
  - intros [= <-]. split; [exact E | left].
  - intros H. destruct (IH H) as [? ?]. split; [assumption | by right].
Qed.

Lemma find_first_None v c :
  find_first v c = None ↔ ∀ d, d ∈ c → doc_id d ≠ v.
Proof.
  induction c as [| e c IH]; cbn.
  - split; [intros _ d Hd; inversion Hd | reflexivity].
  - destruct (decide (doc_id e = v)) as [E | E].
    + split; [discriminate |]. intros H. destruct (H e); [left | exact E].
    + rewrite IH. split.
      * intros H d Hd. apply elem_of_cons in Hd as [-> | Hd]; auto.
      * intros H d Hd. apply H. by right.
Qed.

Lemma find_first_app v c d :
  find_first v (c ++ [d]) =
    match find_first v c with
    | Some e => Some e
    | None => if decide (doc_id d = v) then Some d else None
    end.
Proof.
  induction c as [| e c IH]; cbn; [reflexivity |].
  destruct (decide (doc_id e = v)); [reflexivity | exact IH].
Qed.

Lemma update_first_None v f c :
  find_first v c = None → update_first v f c = c.
Proof.
  induction c as [| e c IH]; cbn; [reflexivity |].
  destruct (decide (doc_id e = v)); [discriminate |].
  intros H. by rewrite IH.
Qed.

Lemma delete_first_None v c :
  find_first v c = None → delete_first v c = c.
Proof.
  induction c as [| e c IH]; cbn; [reflexivity |].
  destruct (decide (doc_id e = v)); [discriminate |].
  intros H. by rewrite IH.
Qed.

Lemma find_first_update_first v w f c :
  (∀ d, doc_id (f d) = doc_id d) →
  find_first w (update_first v f c) =
    if decide (w = v) then f <$> find_first v c else find_first w c.
Proof.
  intros Hf. induction c as [| e c IH]; cbn.
  - by destruct (decide (w = v)).
  - destruct (decide (doc_id e = v)) as [E | E]; cbn; rewrite ?Hf.
    + destruct (decide (w = v)) as [-> | N].
      * by rewrite decide_True.
      * rewrite !decide_False by congruence. reflexivity.
    + rewrite IH. destruct (decide (w = v)) as [-> | N].
      * by rewrite decide_False.
      * reflexivity.
Qed.

(** [delete_first] takes out exactly the document [find_first] finds. *)
Lemma delete_first_split v c d :
  find_first v c = Some d →
  ∃ c1 c2, c = c1 ++ d :: c2 ∧ delete_first v c = c1 ++ c2
           ∧ find_first v c1 = None.
Proof.
  induction c as [| e c IH]; cbn; [discriminate |].
  destruct (decide (doc_id e = v)) as [E | E].
  - intros [= <-]. by exists [], c.
  - intros H. destruct (IH H) as (c1 & c2 & -> & -> & Hc1).
    exists (e :: c1), c2. cbn. by rewrite decide_False.
Qed.

(** [update_first] rewrites exactly the document [find_first] finds. *)
Lemma update_first_split v f c d :
  find_first v c = Some d →
  ∃ c1 c2, c = c1 ++ d :: c2 ∧ update_first v f c = c1 ++ f d :: c2
           ∧ find_first v c1 = None.
Proof.
  induction c as [| e c IH]; cbn; [discriminate |].
  destruct (decide (doc_id e = v)) as [E | E].
  - intros [= <-]. by exists [], c.
  - intros H. destruct (IH H) as (c1 & c2 & -> & -> & Hc1).
    exists (e :: c1), c2. cbn. by rewrite decide_False.
Qed.

Lemma others_update_first v f c :
  (∀ d, doc_id (f d) = doc_id d) →
  others v (update_first v f c) = others v c.
Proof.
  intros Hf. unfold others.
  induction c as [| e c IH]; cbn [update_first]; [reflexivity |].
  destruct (decide (doc_id e = v)) as [E | E].
  - rewrite !filter_cons, Hf. by rewrite !decide_False by tauto.
  - rewrite !filter_cons, IH. reflexivity.
Qed.

Lemma others_delete_first v c : others v (delete_first v c) = others v c.
Proof.
  unfold others.
  induction c as [| e c IH]; cbn [delete_first]; [reflexivity |].
  destruct (decide (doc_id e = v)) as [E | E].
  - rewrite filter_cons. by rewrite decide_False by tauto.
  - rewrite !filter_cons, IH. reflexivity.
Qed.

Lemma others_snoc v c d : doc_id d = v → others v (c ++ [d]) = others v c.
Proof.
  intros E. unfold others. rewrite filter_app, filter_cons.
  rewrite decide_False by tauto. apply app_nil_r.
Qed.

Lemma others_free v c : find_first v c = None → others v c = c.
Proof.
  rewrite find_first_None. intros H. unfold others.
  induction c as [| e c IH]; [reflexivity |].
  rewrite filter_cons, decide_True by (apply H; left).
  f_equal. apply IH. intros d Hd. apply H. by right.
Qed.

Lemma to_dict_nonempty d : to_dict d ≠ ∅.
Proof. apply insert_non_empty. Qed.

Lemma apply_set_id upd d : doc_id (apply_set upd d) = doc_id d.
Proof. reflexivity. Qed.
End store_facts.

(** ** The handlers, one equation per path *)

Section handler_facts.
Import Store.
Implicit Types (c : collection) (d : document) (id : string).

Lemma public_record_id d :
  public_record d !! "id" = Some (VStr (py_str (doc_id d))).
Proof.
  unfold public_record. rewrite lookup_delete_ne by done.
  apply lookup_insert_eq.
Qed.

Lemma public_record_no_native_id d : public_record d !! "_id" = None.
Proof. unfold public_record. apply lookup_delete_eq. Qed.

Lemma public_record_field d (k : string) :
  k ≠ "id" → k ≠ "_id" → public_record d !! k = doc_fields d !! k.
Proof.
  intros H1 H2. unfold public_record, to_dict.
  rewrite lookup_delete_ne, !lookup_insert_ne by done. reflexivity.
Qed.

Lemma publish_to_dict d c :
  publish (to_dict d) c = (Return (public_record d), c).
Proof.
  unfold publish. replace (to_dict d !! "_id") with (Some (doc_id d)).
  - reflexivity.
  - symmetry. apply lookup_insert_eq.
Qed.

Lemma truthy_to_dict d : truthy (Some (to_dict d)) = true.
Proof. apply bool_decide_eq_true_2, to_dict_nonempty. Qed.

Lemma ObjectId_of_str_ok id oid c :
  parse_ObjectId id = Some oid → ObjectId_of_str id c = (Return oid, c).
Proof. unfold ObjectId_of_str. by intros ->. Qed.

Lemma ObjectId_of_str_invalid id c :
  parse_ObjectId id = None → ObjectId_of_str id c = (Raise (InvalidId id), c).
Proof. unfold ObjectId_of_str. by intros ->. Qed.

Lemma get_todos_loop_spec c todos st :
  get_todos_loop (to_dict <$> c) todos st
  = (Return (todos ++ (public_record <$> c)), st).
Proof.
  revert todos. induction c as [| d c IH]; intros todos; cbn.
  - by rewrite app_nil_r.
  - unfold mbind, M_bind. rewrite publish_to_dict, IH.
    by rewrite <- app_assoc.
Qed.

Lemma get_todo_found id oid c d :
  parse_ObjectId id = Some oid → find_first (VOid oid) c = Some d →
  get_todo id c = (Return (public_record d), c).
Proof.
  intros Hid Hd. unfold get_todo, mbind, M_bind, find_one.
  rewrite (ObjectId_of_str_ok _ _ _ Hid), Hd. cbn [fmap option_fmap option_map].
  rewrite truthy_to_dict. apply publish_to_dict.
Qed.

Lemma get_todo_missing id oid c :
  parse_ObjectId id = Some oid → find_first (VOid oid) c = None →
  get_todo id c = (status_404, c).
Proof.
  intros Hid Hd. unfold get_todo, mbind, M_bind, find_one.
  by rewrite (ObjectId_of_str_ok _ _ _ Hid), Hd.
Qed.

Lemma get_todo_invalid id c :
  parse_ObjectId id = None → get_todo id c = (Raise (InvalidId id), c).
Proof.
  intros Hid. unfold get_todo, mbind, M_bind.
  by rewrite (ObjectId_of_str_invalid _ _ Hid).
Qed.

Lemma stripped_payload todo :
  (if decide (is_Some (dict_of_Todo todo !! "id"))
   then delete "id" (dict_of_Todo todo) else dict_of_Todo todo)
  = content_fields (Todo_title todo) (Todo_description todo)
                   (Todo_deadline todo).
Proof.
  unfold dict_of_Todo. rewrite decide_True.
  - rewrite delete_insert_eq. apply delete_id. reflexivity.
  - rewrite lookup_insert_eq. by eexists.
Qed.

Lemma create_todo_fresh fresh todo c :
  find_first (VOid fresh) c = None →
  create_todo fresh todo c
  = (Return (public_record (new_document fresh todo)),
     c ++ [new_document fresh todo]).
Proof.
  intros Hfree. unfold create_todo. rewrite stripped_payload.
  unfold mbind, M_bind, insert_one, find_one.
  replace (content_fields _ _ _ !! "_id") with (@None value) by reflexivity.
  cbn [default]. rewrite Hfree.
  replace (delete "_id" (content_fields _ _ _))
    with (content_fields (Todo_title todo) (Todo_description todo)
            (Todo_deadline todo)) by (symmetry; by apply delete_id).
  fold (new_document fresh todo).
  rewrite find_first_app, Hfree. cbn [new_document doc_id].
  rewrite decide_True by reflexivity. apply publish_to_dict.
Qed.

Lemma create_todo_duplicate fresh todo c :
  find_first (VOid fresh) c ≠ None →
  create_todo fresh todo c = (Raise DuplicateKeyError, c).
Proof.
  intros Hused. unfold create_todo. rewrite stripped_payload.
  unfold mbind, M_bind, insert_one.
  replace (content_fields _ _ _ !! "_id") with (@None value) by reflexivity.
  cbn [default]. by destruct (find_first (VOid fresh) c).
Qed.
End handler_facts.

Section update_delete_facts.
Import Store.
Implicit Types (c : collection) (d : document) (id : string).

Lemma update_todo_found id oid todo c d :
  parse_ObjectId id = Some oid → find_first (VOid oid) c = Some d →
  update_todo id todo c
  = (Return (public_record (apply_set (dict_of_TodoUpdate todo) d)),
     update_first (VOid oid) (apply_set (dict_of_TodoUpdate todo)) c).
Proof.
  intros Hid Hd. unfold update_todo, mbind, M_bind, update_one, find_one.
  rewrite !(ObjectId_of_str_ok _ _ _ Hid).
  rewrite find_first_update_first by apply apply_set_id.
  rewrite decide_True by reflexivity. rewrite Hd.
  cbn [fmap option_fmap option_map].
  rewrite truthy_to_dict. apply publish_to_dict.
Qed.

Lemma update_todo_missing id oid todo c :
  parse_ObjectId id = Some oid → find_first (VOid oid) c = None →
  update_todo id todo c = (status_404, c).
Proof.
  intros Hid Hd. unfold update_todo, mbind, M_bind, update_one, find_one.
  rewrite !(ObjectId_of_str_ok _ _ _ Hid).
  rewrite (update_first_None _ _ _ Hd). by rewrite Hd.
Qed.

Lemma update_todo_invalid id todo c :
  parse_ObjectId id = None →
  update_todo id todo c = (Raise (InvalidId id), c).
Proof.
  intros Hid. unfold update_todo, mbind, M_bind.
  by rewrite (ObjectId_of_str_invalid _ _ Hid).
Qed.

Lemma delete_todo_found id oid c d :
  parse_ObjectId id = Some oid → find_first (VOid oid) c = Some d →
  delete_todo id c = (Return delete_message, delete_first (VOid oid) c).
Proof.
  intros Hid Hd. unfold delete_todo, mbind, M_bind, delete_one.
  by rewrite (ObjectId_of_str_ok _ _ _ Hid), Hd.
Qed.

Lemma delete_todo_missing id oid c :
  parse_ObjectId id = Some oid → find_first (VOid oid) c = None →
  delete_todo id c = (status_404, c).
Proof.
  intros Hid Hd. unfold delete_todo, mbind, M_bind, delete_one.
  by rewrite (ObjectId_of_str_ok _ _ _ Hid), Hd.
Qed.

Lemma delete_todo_invalid id c :
  parse_ObjectId id = None → delete_todo id c = (Raise (InvalidId id), c).
Proof.
  intros Hid. unfold delete_todo, mbind, M_bind.
  by rewrite (ObjectId_of_str_invalid _ _ Hid).
Qed.

(** The content fields of a record after a [$set] of an update payload. *)
Lemma updated_fields todo d :
  let r := public_record (apply_set (dict_of_TodoUpdate todo) d) in
  r !! "title" = Some (VStr (TodoUpdate_title todo))
  ∧ r !! "description" = Some (VStr (TodoUpdate_description todo))
  ∧ r !! "deadline" = Some (VStr (TodoUpdate_deadline todo)).
Proof.
  cbn zeta. rewrite !public_record_field by done.
  cbn [apply_set doc_fields].
  repeat split; apply lookup_union_Some_l; reflexivity.
Qed.

(** The content fields of the record of a newly created document. *)
Lemma created_fields fresh todo :
  let r := public_record (new_document fresh todo) in
  r !! "title" = Some (VStr (Todo_title todo))
  ∧ r !! "description" = Some (VStr (Todo_description todo))
  ∧ r !! "deadline" = Some (VStr (Todo_deadline todo)).
Proof.
  cbn zeta. rewrite !public_record_field by done.
  repeat split; reflexivity.
Qed.
End update_delete_facts.

(** ** The scenario of the specification, run on the empty collection *)

Example scenario_create :
  create_todo oid_sample milk []
  = (Return (<["id" := VStr sample_id]>
               (content_fields "Buy milk" "2%" "2024-01-01")),
     one_todo).
Proof. vm_compute. reflexivity. Qed.

Example scenario_get :
  get_todo sample_id one_todo
  = (Return (<["id" := VStr sample_id]>
               (content_fields "Buy milk" "2%" "2024-01-01")),
     one_todo).
Proof. vm_compute. reflexivity. Qed.

Example scenario_update :
  (update_todo sample_id oat_milk one_todo).1
  = Return (<["id" := VStr sample_id]>
              (content_fields "Buy oat milk" "2%" "2024-01-02")).
Proof. vm_compute. reflexivity. Qed.

Example scenario_delete :
  delete_todo sample_id one_todo = (Return delete_message, []).
Proof. vm_compute. reflexivity. Qed.

Example scenario_get_after_delete :
  get_todo sample_id [] = (status_404, []).
Proof. vm_compute. reflexivity. Qed.

Example scenario_duplicate :
  create_todo oid_sample milk one_todo = (Raise DuplicateKeyError, one_todo).
Proof. vm_compute. reflexivity. Qed.

(** A record built from string fields only holds strings only: the handlers
    add the identifier in string form and nothing else. *)
Lemma public_record_strings (d : document) :
  (∀ (k : string) (x : value),
     doc_fields d !! k = Some x → ∃ s, x = VStr s) →
  ∀ (k : string) (x : value),
    public_record d !! k = Some x → ∃ s, x = VStr s.
Proof.
  intros Hstr k x. destruct (decide (k = "id")) as [-> | Hid].
  { rewrite public_record_id. intros [= <-]. by eexists. }
  destruct (decide (k = "_id")) as [-> | Hnative].
  { by rewrite public_record_no_native_id. }
  rewrite public_record_field by done. apply Hstr.
Qed.

(** * The claims *)

(** C1. For every valid Todo payload, creating it with [create_todo] and then
    fetching it with [get_todo] under the id string the creation returned
    yields a record whose title, description and deadline are those of the
    payload and whose id is a non-empty string.  The identifier the storage
    layer assigns is one it generates and that is not in use. *)
Theorem create_then_get (c : collection) (fresh : ObjectId) (todo : Todo) :
  generated fresh →
  Store.find_first (VOid fresh) c = None →
  ∃ (r : dict) (c' : collection) (new_id : string),
    create_todo fresh todo c = (Return r, c')
    ∧ r !! "id" = Some (VStr new_id)
    ∧ new_id ≠ ""
    ∧ ∃ r' : dict,
        get_todo new_id c' = (Return r', c')
        ∧ has_content r' (Todo_title todo) (Todo_description todo)
            (Todo_deadline todo)
        ∧ r' !! "id" = Some (VStr new_id).
Proof.
  intros Hgen Hfree.
  exists (public_record (new_document fresh todo)),
    (c ++ [new_document fresh todo]), (str_ObjectId fresh).
  split; [by apply create_todo_fresh |].
  split; [apply public_record_id |].
  split; [by apply str_ObjectId_nonempty |].
  exists (public_record (new_document fresh todo)).
  split.
  - apply get_todo_found with (oid := fresh).
    + by apply parse_str_ObjectId.
    + rewrite find_first_app, Hfree. cbn [new_document doc_id].
      by rewrite decide_True.
  - split; [apply created_fields | apply public_record_id].
Qed.

Lemma create_then_get_witness :
  generated oid_sample
  ∧ Store.find_first (VOid oid_sample) [] = None
  ∧ ∃ (r : dict) (c' : collection) (new_id : string),
      create_todo oid_sample milk [] = (Return r, c')
      ∧ r !! "id" = Some (VStr new_id)
      ∧ new_id ≠ ""
      ∧ ∃ r' : dict,
          get_todo new_id c' = (Return r', c')
          ∧ has_content r' "Buy milk" "2%" "2024-01-01"
          ∧ r' !! "id" = Some (VStr new_id).
Proof.
  split; [reflexivity |]. split; [reflexivity |].
  apply (create_then_get [] oid_sample milk); reflexivity.
Defined.

(** C2. For every existing todo and every valid update payload, [update_todo]
    under the todo's id followed by [get_todo] under the same id returns a
    record whose title, description and deadline are exactly the payload's:
    the three fields are replaced together. *)
Theorem update_then_get (c : collection) (id : string) (oid : ObjectId)
    (d : document) (todo : TodoUpdate) :
  parse_ObjectId id = Some oid →
  Store.find_first (VOid oid) c = Some d →
  ∃ (r : dict) (c' : collection),
    update_todo id todo c = (Return r, c')
    ∧ ∃ r' : dict,
        get_todo id c' = (Return r', c')
        ∧ has_content r' (TodoUpdate_title todo)
            (TodoUpdate_description todo) (TodoUpdate_deadline todo)
        ∧ has_public_id r' (VOid oid).
Proof.
  intros Hid Hd.
  set (upd := Store.apply_set (dict_of_TodoUpdate todo)).
  exists (public_record (upd d)), (Store.update_first (VOid oid) upd c).
  split; [by apply update_todo_found |].
  exists (public_record (upd d)). split.
  - apply get_todo_found with (oid := oid); [exact Hid |].
    rewrite find_first_update_first by apply apply_set_id.
    rewrite decide_True by reflexivity. by rewrite Hd.
  - split; [apply updated_fields |].
    destruct (find_first_Some _ _ _ Hd) as [Hdid _].
    split; [| apply public_record_no_native_id].
    rewrite public_record_id. subst upd. by rewrite apply_set_id, Hdid.
Qed.

Lemma update_then_get_witness :
  parse_ObjectId sample_id = Some oid_sample
  ∧ Store.find_first (VOid oid_sample) one_todo
    = Some (new_document oid_sample milk)
  ∧ ∃ (r : dict) (c' : collection),
      update_todo sample_id oat_milk one_todo = (Return r, c')
      ∧ ∃ r' : dict,
          get_todo sample_id c' = (Return r', c')
          ∧ has_content r' "Buy oat milk" "2%" "2024-01-02"
          ∧ has_public_id r' (VOid oid_sample).
Proof.
  split; [reflexivity |]. split; [reflexivity |].
  apply (update_then_get one_todo sample_id oid_sample
           (new_document oid_sample milk) oat_milk); reflexivity.
Defined.

(** C3. For every identifier string that parses as an object id but matches
    no document of the collection, each of [get_todo], [update_todo] and
    [delete_todo] fails with HTTP status 404. *)
Theorem missing_id_is_404 (c : collection) (id : string) (oid : ObjectId) :
  parse_ObjectId id = Some oid →
  Store.find_first (VOid oid) c = None →
  get_todo id c = (Raise (HTTPException 404%N "Todo not found"), c)
  ∧ (∀ todo : TodoUpdate,
       update_todo id todo c
       = (Raise (HTTPException 404%N "Todo not found"), c))
  ∧ delete_todo id c = (Raise (HTTPException 404%N "Todo not found"), c).
Proof.
  intros Hid Hnone. split; [| split].
  - by apply get_todo_missing with (oid := oid).
  - intros todo. by apply update_todo_missing with (oid := oid).
  - by apply delete_todo_missing with (oid := oid).
Qed.

Lemma missing_id_is_404_witness :
  parse_ObjectId other_id = Some oid_other
  ∧ Store.find_first (VOid oid_other) one_todo = None
  ∧ get_todo other_id one_todo
    = (Raise (HTTPException 404%N "Todo not found"), one_todo)
  ∧ (∀ todo : TodoUpdate,
       update_todo other_id todo one_todo
       = (Raise (HTTPException 404%N "Todo not found"), one_todo))
  ∧ delete_todo other_id one_todo
    = (Raise (HTTPException 404%N "Todo not found"), one_todo).
Proof.
  split; [reflexivity |]. split; [reflexivity |].
  apply (missing_id_is_404 one_todo other_id oid_other); reflexivity.
Defined.

(** C4. For every valid identifier string, [delete_todo] removes the matching
    document and returns exactly the message [Todo deleted successfully]; it
    returns that message if and only if a document was removed, and when no
    document matches it fails with HTTP status 404. *)
Theorem delete_todo_spec (c : collection) (id : string) (oid : ObjectId) :
  parse_ObjectId id = Some oid →
  (∀ d : document,
     Store.find_first (VOid oid) c = Some d →
     ∃ c1 c2 : collection,
       c = c1 ++ d :: c2
       ∧ Store.find_first (VOid oid) c1 = None
       ∧ delete_todo id c
         = (Return {["message" := VStr "Todo deleted successfully"]},
            c1 ++ c2))
  ∧ (Store.find_first (VOid oid) c = None →
     delete_todo id c = (Raise (HTTPException 404%N "Todo not found"), c))
  ∧ (∀ (out : outcome dict) (c' : collection),
       delete_todo id c = (out, c') →
       out = Return {["message" := VStr "Todo deleted successfully"]}
       ↔ length c = S (length c')).
Proof.
  intros Hid. split; [| split].
  - intros d Hd.
    destruct (delete_first_split _ _ _ Hd) as (c1 & c2 & Hc & Hdel & Hc1).
    exists c1, c2. split; [exact Hc |]. split; [exact Hc1 |].
    rewrite <- Hdel. by apply delete_todo_found with (d := d).
  - intros Hnone. by apply delete_todo_missing with (oid := oid).
  - intros out c'. destruct (Store.find_first (VOid oid) c) as [d |] eqn:Hd.
    + rewrite (delete_todo_found _ _ _ _ Hid Hd). intros [= <- <-].
      destruct (delete_first_split _ _ _ Hd) as (c1 & c2 & Hc & Hdel & _).
      split; [intros _ | reflexivity].
      rewrite Hdel, Hc, !length_app. cbn. lia.
    + rewrite (delete_todo_missing _ _ _ Hid Hd). intros [= <- <-].
      split; [discriminate | lia].
Qed.

Lemma delete_todo_spec_witness :
  parse_ObjectId sample_id = Some oid_sample
  ∧ delete_todo sample_id one_todo
    = (Return {["message" := VStr "Todo deleted successfully"]}, []).
Proof.
  split; [reflexivity |].
  destruct (delete_todo_spec one_todo sample_id oid_sample eq_refl)
    as (Hfound & _ & _).
  destruct (Hfound (new_document oid_sample milk) eq_refl)
    as (c1 & c2 & Hc & _ & Hdel).
  destruct c1 as [| e c1].
  - injection Hc as <-. exact Hdel.
  - exfalso. injection Hc as _ Hc. by destruct c1.
Defined.



(** C6. Every record returned to a client by [get_todos], [get_todo],
    [create_todo] or [update_todo] has the field [id], whose value is the
    string form of the storage identifier, and has no [_id] field. *)
Theorem returned_records_shape (c : collection) :
  (∀ (rs : list dict) (c' : collection),
     get_todos c = (Return rs, c') →
     Forall2 (λ d r, has_public_id r (doc_id d)) c rs)
  ∧ (∀ (id : string) (r : dict) (c' : collection),
       get_todo id c = (Return r, c') →
       ∃ oid, parse_ObjectId id = Some oid ∧ has_public_id r (VOid oid))
  ∧ (∀ (fresh : ObjectId) (todo : Todo) (r : dict) (c' : collection),
       create_todo fresh todo c = (Return r, c') →
       has_public_id r (VOid fresh))
  ∧ (∀ (id : string) (todo : TodoUpdate) (r : dict) (c' : collection),
       update_todo id todo c = (Return r, c') →
       ∃ oid, parse_ObjectId id = Some oid ∧ has_public_id r (VOid oid)).
Proof.
  assert (Hpub : ∀ d, has_public_id (public_record d) (doc_id d)).
  { intros d. split; [apply public_record_id |].
    apply public_record_no_native_id. }
  split; [| split; [| split]].
  - intros rs c'. unfold get_todos, mbind, M_bind, Store.find.
    rewrite get_todos_loop_spec. intros [= <- _]. cbn [app].
    apply Forall2_fmap_r, Forall_Forall2_diag, Forall_forall.
    intros d _. apply Hpub.
  - intros id r c' Hrun.
    destruct (parse_ObjectId id) as [oid |] eqn:Hid.
    2: { by rewrite (get_todo_invalid _ _ Hid) in Hrun. }
    exists oid. split; [reflexivity |].
    destruct (Store.find_first (VOid oid) c) as [d |] eqn:Hd.
    + rewrite (get_todo_found _ _ _ _ Hid Hd) in Hrun.
      injection Hrun as <- _.
      destruct (find_first_Some _ _ _ Hd) as [<- _]. apply Hpub.
    + by rewrite (get_todo_missing _ _ _ Hid Hd) in Hrun.
  - intros fresh todo r c' Hrun.
    destruct (Store.find_first (VOid fresh) c) as [d |] eqn:Hd.
    + by rewrite create_todo_duplicate in Hrun by congruence.
    + rewrite (create_todo_fresh _ _ _ Hd) in Hrun.
      injection Hrun as <- _. apply (Hpub (new_document fresh todo)).
  - intros id todo r c' Hrun.
    destruct (parse_ObjectId id) as [oid |] eqn:Hid.
    2: { by rewrite (update_todo_invalid _ _ _ Hid) in Hrun. }
    exists oid. split; [reflexivity |].
    destruct (Store.find_first (VOid oid) c) as [d |] eqn:Hd.
    + rewrite (update_todo_found _ _ _ _ _ Hid Hd) in Hrun.
      injection Hrun as <- _.
      destruct (find_first_Some _ _ _ Hd) as [<- _].
      apply (Hpub (Store.apply_set (dict_of_TodoUpdate todo) d)).
    + by rewrite (update_todo_missing _ _ _ _ Hid Hd) in Hrun.
Qed.

Lemma returned_records_shape_witness :
  get_todo sample_id one_todo
  = (Return (public_record (new_document oid_sample milk)), one_todo)
  ∧ ∃ oid,
      parse_ObjectId sample_id = Some oid
      ∧ has_public_id (public_record (new_document oid_sample milk))
          (VOid oid).
Proof.
  split; [reflexivity |].
  destruct (returned_records_shape one_todo) as (_ & Hget & _ & _).
  apply (Hget sample_id _ one_todo). reflexivity.
Defined.

(** C7. For every collection state, [get_todos] returns one record per
    document, each with the storage identifier rewritten as the public
    string field [id] and its other fields as stored, in the order of the
    store, and it leaves the collection unchanged. *)
Theorem get_todos_spec (c : collection) :
  get_todos c = (Return (public_record <$> c), c)
  ∧ length (public_record <$> c) = length c
  ∧ ∀ (i : nat) (d : document),
      c !! i = Some d →
      ∃ r : dict,
        (public_record <$> c) !! i = Some r
        ∧ r !! "id" = Some (VStr (py_str (doc_id d)))
        ∧ r !! "_id" = None
        ∧ ∀ k : string,
            k ≠ "id" → k ≠ "_id" → r !! k = doc_fields d !! k.
Proof.
  split; [| split].
  - unfold get_todos, mbind, M_bind, Store.find.
    by rewrite get_todos_loop_spec.
  - apply length_fmap.
  - intros i d Hi. exists (public_record d).
    split; [by rewrite list_lookup_fmap, Hi |].
    split; [apply public_record_id |].
    split; [apply public_record_no_native_id |].
    intros k. apply public_record_field.
Qed.

Lemma get_todos_spec_witness :
  one_todo !! 0 = Some (new_document oid_sample milk)
  ∧ ∃ r : dict,
      (get_todos one_todo).1 = Return [r]
      ∧ r !! "id" = Some (VStr sample_id)
      ∧ r !! "title" = Some (VStr "Buy milk").
Proof.
  split; [reflexivity |].
  destruct (get_todos_spec one_todo) as (Hrun & _ & Hrec).
  destruct (Hrec 0 (new_document oid_sample milk) eq_refl)
    as (r & Hr & Hid & _ & Hfield).
  exists r. split.
  - rewrite Hrun. injection Hr as <-. reflexivity.
  - split; [exact Hid |]. by rewrite Hfield.
Defined.

(** C8. For every path identifier string that cannot be parsed into an
    object id, [get_todo], [update_todo] and [delete_todo] let the parse
    failure propagate: the outcome is the raised [InvalidId], not an HTTP
    error response of the handler, and the collection is not touched. *)
Theorem malformed_id_propagates (c : collection) (id : string) :
  parse_ObjectId id = None →
  get_todo id c = (Raise (InvalidId id), c)
  ∧ (∀ todo : TodoUpdate, update_todo id todo c = (Raise (InvalidId id), c))
  ∧ delete_todo id c = (Raise (InvalidId id), c)
  ∧ ∀ (status : N) (detail : string),
      InvalidId id ≠ HTTPException status detail.
Proof.
  intros Hid. split; [| split; [| split]].
  - by apply get_todo_invalid.
  - intros todo. by apply update_todo_invalid.
  - by apply delete_todo_invalid.
  - discriminate.
Qed.

Lemma malformed_id_propagates_witness :
  parse_ObjectId "not-an-id" = None
  ∧ get_todo "not-an-id" one_todo = (Raise (InvalidId "not-an-id"), one_todo)
  ∧ update_todo "not-an-id" oat_milk one_todo
    = (Raise (InvalidId "not-an-id"), one_todo)
  ∧ delete_todo "not-an-id" one_todo
    = (Raise (InvalidId "not-an-id"), one_todo).
Proof.
  split; [reflexivity |].
  destruct (malformed_id_propagates one_todo "not-an-id" eq_refl)
    as (Hget & Hupd & Hdel & _).
  split; [exact Hget |]. split; [apply Hupd | exact Hdel].
Defined.



(** C10. [get_todo], [update_todo] and [delete_todo] leave every document
    whose identifier differs from the addressed one unchanged, and so does
    [create_todo] for every document whose identifier differs from the newly
    assigned one. *)
Theorem other_documents_unchanged (c : collection) (id : string)
    (oid : ObjectId) :
  parse_ObjectId id = Some oid →
  others (VOid oid) (get_todo id c).2 = others (VOid oid) c
  ∧ (∀ todo : TodoUpdate,
       others (VOid oid) (update_todo id todo c).2 = others (VOid oid) c)
  ∧ others (VOid oid) (delete_todo id c).2 = others (VOid oid) c
  ∧ (∀ (fresh : ObjectId) (todo : Todo),
       others (VOid fresh) (create_todo fresh todo c).2
       = others (VOid fresh) c).
Proof.
  intros Hid. split; [| split; [| split]].
  - destruct (Store.find_first (VOid oid) c) as [d |] eqn:Hd.
    + by rewrite (get_todo_found _ _ _ _ Hid Hd).
    + by rewrite (get_todo_missing _ _ _ Hid Hd).
  - intros todo. destruct (Store.find_first (VOid oid) c) as [d |] eqn:Hd.
    + rewrite (update_todo_found _ _ _ _ _ Hid Hd). cbn [snd].
      apply others_update_first, apply_set_id.
    + by rewrite (update_todo_missing _ _ _ _ Hid Hd).
  - destruct (Store.find_first (VOid oid) c) as [d |] eqn:Hd.
    + rewrite (delete_todo_found _ _ _ _ Hid Hd). cbn [snd].
      apply others_delete_first.
    + by rewrite (delete_todo_missing _ _ _ Hid Hd).
  - intros fresh todo.
    destruct (Store.find_first (VOid fresh) c) as [d |] eqn:Hd.
    + by rewrite create_todo_duplicate by congruence.
    + rewrite (create_todo_fresh _ _ _ Hd). cbn [snd].
      by apply others_snoc.
Qed.

Lemma other_documents_unchanged_witness :
  parse_ObjectId sample_id = Some oid_sample
  ∧ others (VOid oid_sample) (delete_todo sample_id two_todos).2
    = [new_document oid_other milk]
  ∧ others (VOid oid_sample) (update_todo sample_id oat_milk two_todos).2
    = [new_document oid_other milk].
Proof.
  split; [reflexivity |].
  destruct (other_documents_unchanged two_todos sample_id oid_sample eq_refl)
    as (_ & Hupd & Hdel & _).
  split; [rewrite Hdel | rewrite Hupd]; reflexivity.
Defined.

(** * Further properties of the handlers *)

(** ** Supporting facts *)

Lemma hexlify_inj (a b : list byte) : Hex.hexlify a = Hex.hexlify b → a = b.
Proof.
  intros E. pose proof (fromhex_hexlify a) as Ha.
  rewrite E, fromhex_hexlify in Ha. congruence.
Qed.

Lemma stored_ids_update_first v f (c : collection) :
  (∀ d, doc_id (f d) = doc_id d) →
  stored_ids (Store.update_first v f c) = stored_ids c.
Proof.
  intros Hf. unfold stored_ids.
  induction c as [| e c IH]; cbn [Store.update_first]; [reflexivity |].
  destruct (decide (doc_id e = v)); rewrite !fmap_cons.
  - by rewrite Hf.
  - by rewrite IH.
Qed.

Lemma stored_ids_delete_first v (c : collection) :
  stored_ids (Store.delete_first v c) `sublist_of` stored_ids c.
Proof.
  unfold stored_ids.
  induction c as [| e c IH]; cbn [Store.delete_first]; [reflexivity |].
  destruct (decide (doc_id e = v)); rewrite !fmap_cons.
  - by apply sublist_cons.
  - by apply sublist_skip.
Qed.

Lemma find_first_not_stored v (c : collection) :
  v ∉ stored_ids c → Store.find_first v c = None.
Proof.
  intros Hv. apply find_first_None. intros d Hd E. apply Hv.
  unfold stored_ids. rewrite <- E. by apply list_elem_of_fmap_2.
Qed.

Lemma find_first_stored v (c : collection) :
  Store.find_first v c = None → v ∉ stored_ids c.
Proof.
  rewrite find_first_None. intros H Hv.
  apply list_elem_of_fmap in Hv as (d & -> & Hd). by apply (H d).
Qed.

Lemma find_first_unique (c : collection) (d : document) :
  unique_ids c → d ∈ c → Store.find_first (doc_id d) c = Some d.
Proof.
  unfold unique_ids, stored_ids.
  induction c as [| e c IH]; intros Hnd Hd; [by inversion Hd |].
  rewrite fmap_cons in Hnd. apply NoDup_cons in Hnd as [Hfresh Hnd].
  cbn [Store.find_first]. apply elem_of_cons in Hd as [-> | Hd].
  - by rewrite decide_True.
  - rewrite decide_False; [by apply IH |].
    intros E. apply Hfresh. rewrite E. by apply list_elem_of_fmap_2.
Qed.

Lemma find_first_delete_first_unique v (c : collection) :
  unique_ids c → Store.find_first v (Store.delete_first v c) = None.
Proof.
  unfold unique_ids, stored_ids.
  induction c as [| e c IH]; intros Hnd; [reflexivity |].
  rewrite fmap_cons in Hnd. apply NoDup_cons in Hnd as [Hfresh Hnd].
  cbn [Store.delete_first]. destruct (decide (doc_id e = v)) as [E | E].
  - apply find_first_not_stored. by rewrite <- E.
  - cbn [Store.find_first]. rewrite decide_False by exact E. by apply IH.
Qed.

Lemma delete_first_snoc v (c : collection) (d : document) :
  Store.find_first v c = None → doc_id d = v →
  Store.delete_first v (c ++ [d]) = c.
Proof.
  intros Hnone Hd. induction c as [| e c IH]; cbn.
  - by rewrite decide_True.
  - cbn in Hnone. destruct (decide (doc_id e = v)); [discriminate |].
    by rewrite IH.
Qed.

Lemma apply_set_idem (upd : dict) (d : document) :
  Store.apply_set upd (Store.apply_set upd d) = Store.apply_set upd d.
Proof.
  unfold Store.apply_set. cbn [doc_id doc_fields]. f_equal.
  rewrite (assoc_L (∪)). by rewrite (idemp_L (∪)).
Qed.

Lemma update_first_idem v f (c : collection) :
  (∀ d, doc_id (f d) = doc_id d) → (∀ d, f (f d) = f d) →
  Store.update_first v f (Store.update_first v f c) = Store.update_first v f c.
Proof.
  intros Hid Hidem. induction c as [| e c IH]; cbn; [reflexivity |].
  destruct (decide (doc_id e = v)) as [E | E]; cbn.
  - rewrite decide_True by (by rewrite Hid). by rewrite Hidem.
  - rewrite decide_False by exact E. by rewrite IH.
Qed.

Lemma apply_set_shaped (todo : TodoUpdate) (d : document) (oid : ObjectId) :
  doc_id d = VOid oid → todo_shaped d →
  Store.apply_set (dict_of_TodoUpdate todo) d = updated_document oid todo.
Proof.
  intros Hid (t & de & dl & Hfields). destruct d as [v fields].
  cbn in Hid, Hfields. subst v fields.
  unfold Store.apply_set, updated_document. cbn [doc_id doc_fields].
  reflexivity.
Qed.

(** The collection each handler leaves behind. *)

Lemma get_todo_state (id : string) (c : collection) : (get_todo id c).2 = c.
Proof.
  destruct (parse_ObjectId id) as [oid |] eqn:Hid.
  - destruct (Store.find_first (VOid oid) c) as [d |] eqn:Hd.
    + by rewrite (get_todo_found _ _ _ _ Hid Hd).
    + by rewrite (get_todo_missing _ _ _ Hid Hd).
  - by rewrite (get_todo_invalid _ _ Hid).
Qed.

Lemma update_todo_state (id : string) (oid : ObjectId) (todo : TodoUpdate)
    (c : collection) :
  parse_ObjectId id = Some oid →
  (update_todo id todo c).2
  = Store.update_first (VOid oid) (Store.apply_set (dict_of_TodoUpdate todo)) c.
Proof.
  intros Hid. destruct (Store.find_first (VOid oid) c) as [d |] eqn:Hd.
  - by rewrite (update_todo_found _ _ _ _ _ Hid Hd).
  - rewrite (update_todo_missing _ _ _ _ Hid Hd).
    by rewrite update_first_None.
Qed.

Lemma delete_todo_state (id : string) (oid : ObjectId) (c : collection) :
  parse_ObjectId id = Some oid →
  (delete_todo id c).2 = Store.delete_first (VOid oid) c.
Proof.
  intros Hid. destruct (Store.find_first (VOid oid) c) as [d |] eqn:Hd.
  - by rewrite (delete_todo_found _ _ _ _ Hid Hd).
  - rewrite (delete_todo_missing _ _ _ Hid Hd).
    by rewrite delete_first_None.
Qed.

Lemma get_todos_run (c : collection) :
  get_todos c = (Return (public_record <$> c), c).
Proof.
  unfold get_todos, mbind, M_bind, Store.find.
  by rewrite get_todos_loop_spec.
Qed.

Lemma Forall_update_first (P : document → Prop) v f (c : collection) :
  (∀ d, doc_id d = v → P d → P (f d)) →
  Forall P c → Forall P (Store.update_first v f c).
Proof.
  intros Hf. induction 1 as [| e c He Hc IH]; cbn; [constructor |].
  destruct (decide (doc_id e = v)); constructor; auto.
Qed.

Lemma Forall_delete_first (P : document → Prop) v (c : collection) :
  Forall P c → Forall P (Store.delete_first v c).
Proof.
  induction 1 as [| e c He Hc IH]; cbn; [constructor |].
  destruct (decide (doc_id e = v)); [assumption | by constructor].
Qed.

Lemma public_record_explicit (d : document) :
  doc_fields d !! "_id" = None →
  public_record d = <["id" := VStr (py_str (doc_id d))]> (doc_fields d).
Proof.
  intros Hnone. apply map_eq. intros k.
  destruct (decide (k = "id")) as [-> | Hid].
  { by rewrite public_record_id, lookup_insert_eq. }
  rewrite lookup_insert_ne by done.
  destruct (decide (k = "_id")) as [-> | Hnative].
  { by rewrite public_record_no_native_id. }
  by apply public_record_field.
Qed.

Lemma public_record_shaped (d : document) :
  todo_shaped d →
  ∃ title description deadline : string,
    public_record d
    = <["id" := VStr (py_str (doc_id d))]>
        (content_fields title description deadline).
Proof.
  intros (t & de & dl & Hfields). exists t, de, dl.
  rewrite public_record_explicit; rewrite Hfields; reflexivity.
Qed.

Lemma unique_ids_snoc (c : collection) (d : document) :
  unique_ids c → Store.find_first (doc_id d) c = None →
  unique_ids (c ++ [d]).
Proof.
  unfold unique_ids, stored_ids. intros Hnd Hfree.
  rewrite fmap_app. apply NoDup_app. split; [exact Hnd |].
  split; [| apply NoDup_singleton].
  intros v Hv Hin. apply list_elem_of_singleton in Hin as ->.
  by apply (find_first_stored _ _ Hfree).
Qed.

(** ** Reading *)

(** X1. [get_todo] is read-only: whatever the identifier string (one that
    matches, one that matches nothing, one that does not parse), the
    collection is the same afterwards. *)
Theorem get_todo_read_only (id : string) (c : collection) :
  (get_todo id c).2 = c.
Proof.
  destruct (parse_ObjectId id) as [oid |] eqn:Hid.
  - destruct (Store.find_first (VOid oid) c) as [d |] eqn:Hd.
    + by rewrite (get_todo_found id oid c d Hid Hd).
    + by rewrite (get_todo_missing id oid c Hid Hd).
  - by rewrite (get_todo_invalid id c Hid).
Qed.

(** X2. The handlers addressed by an identifier fail in two ways only: with
    HTTP status 404, exactly when the identifier parses and matches no
    document, and with [InvalidId], exactly when it does not parse.  The
    subscripting of the fetched document never fails. *)
Theorem id_handlers_errors (id : string) (todo : TodoUpdate) (c : collection)
    (e : exn) :
  (get_todo id c).1 = Raise e
  ∨ (update_todo id todo c).1 = Raise e
  ∨ (delete_todo id c).1 = Raise e →
  (e = HTTPException 404%N "Todo not found"
   ∧ ∃ oid, parse_ObjectId id = Some oid
            ∧ Store.find_first (VOid oid) c = None)
  ∨ (e = InvalidId id ∧ parse_ObjectId id = None).
Proof.
  intros Hfail. destruct (parse_ObjectId id) as [oid |] eqn:Hid.
  - left. destruct (Store.find_first (VOid oid) c) as [d |] eqn:Hd.
    + rewrite (get_todo_found _ _ _ _ Hid Hd),
        (update_todo_found _ _ _ _ _ Hid Hd),
        (delete_todo_found _ _ _ _ Hid Hd) in Hfail.
      by destruct Hfail as [? | [? | ?]].
    + rewrite (get_todo_missing _ _ _ Hid Hd),
        (update_todo_missing _ _ _ _ Hid Hd),
        (delete_todo_missing _ _ _ Hid Hd) in Hfail.
      split; [| by exists oid].
      destruct Hfail as [H | [H | H]]; by injection H as <-.
  - right. split; [| reflexivity].
    rewrite (get_todo_invalid _ _ Hid), (update_todo_invalid _ _ _ Hid),
      (delete_todo_invalid _ _ Hid) in Hfail.
    destruct Hfail as [H | [H | H]]; by injection H as <-.
Qed.

Lemma id_handlers_errors_witness :
  (delete_todo other_id one_todo).1
  = Raise (HTTPException 404%N "Todo not found")
  ∧ Store.find_first (VOid oid_other) one_todo = None.
Proof.
  split; [reflexivity |].
  destruct (id_handlers_errors other_id oat_milk one_todo
              (HTTPException 404%N "Todo not found"))
    as [(_ & oid & Hid & Hnone) | (Hbad & _)].
  - right. right. reflexivity.
  - injection Hid as <-. exact Hnone.
  - discriminate Hbad.
Defined.

(** X3. [create_todo] fails only when the store refuses the identifier as
    already in use; the collection is then unchanged.  The re-fetch after a
    successful insert always finds the document, so its subscripting never
    fails. *)
Theorem create_todo_errors (fresh : ObjectId) (todo : Todo) (c : collection)
    (e : exn) :
  (create_todo fresh todo c).1 = Raise e →
  e = DuplicateKeyError
  ∧ Store.find_first (VOid fresh) c ≠ None
  ∧ (create_todo fresh todo c).2 = c.
Proof.
  destruct (Store.find_first (VOid fresh) c) as [d |] eqn:Hd.
  - rewrite create_todo_duplicate by congruence. by intros [= <-].
  - by rewrite (create_todo_fresh _ _ _ Hd).
Qed.

Lemma create_todo_errors_witness :
  (create_todo oid_sample milk one_todo).1 = Raise DuplicateKeyError
  ∧ (create_todo oid_sample milk one_todo).2 = one_todo.
Proof.
  split; [reflexivity |].
  apply (create_todo_errors oid_sample milk one_todo DuplicateKeyError).
  reflexivity.
Defined.

(** X4. In a collection without duplicate identifiers, once [delete_todo]
    has removed a document, [get_todo], [update_todo] and a second
    [delete_todo] under the same identifier all fail with HTTP status 404. *)
Theorem delete_then_404 (id : string) (oid : ObjectId) (d : document)
    (c : collection) :
  unique_ids c →
  parse_ObjectId id = Some oid →
  Store.find_first (VOid oid) c = Some d →
  ∃ c' : collection,
    delete_todo id c = (Return delete_message, c')
    ∧ get_todo id c' = (Raise (HTTPException 404%N "Todo not found"), c')
    ∧ (∀ todo : TodoUpdate,
         update_todo id todo c'
         = (Raise (HTTPException 404%N "Todo not found"), c'))
    ∧ delete_todo id c'
      = (Raise (HTTPException 404%N "Todo not found"), c').
Proof.
  intros Huniq Hid Hd. exists (Store.delete_first (VOid oid) c).
  pose proof (find_first_delete_first_unique (VOid oid) c Huniq) as Hgone.
  split; [by apply delete_todo_found with (d := d) |].
  split; [by apply get_todo_missing with (oid := oid) |].
  split; [intros todo; by apply update_todo_missing with (oid := oid) |].
  by apply delete_todo_missing with (oid := oid).
Qed.

Lemma delete_then_404_witness :
  unique_ids two_todos
  ∧ parse_ObjectId sample_id = Some oid_sample
  ∧ Store.find_first (VOid oid_sample) two_todos
    = Some (new_document oid_sample milk)
  ∧ ∃ c' : collection,
      delete_todo sample_id two_todos = (Return delete_message, c')
      ∧ get_todo sample_id c'
        = (Raise (HTTPException 404%N "Todo not found"), c').
Proof.
  assert (Huniq : unique_ids two_todos).
  { unfold unique_ids. apply (bool_decide_unpack _). by vm_compute. }
  split; [exact Huniq |]. split; [reflexivity |]. split; [reflexivity |].
  destruct (delete_then_404 sample_id oid_sample
              (new_document oid_sample milk) two_todos Huniq eq_refl eq_refl)
    as (c' & Hdel & Hget & _).
  exists c'. by split.
Defined.

(** ** Invariants the handlers keep *)

(** X5. No handler introduces a duplicate identifier: if the identifiers of
    the collection are pairwise distinct before [get_todo], [update_todo],
    [delete_todo] or [create_todo], they are so afterwards, whatever the
    arguments and whether the call succeeds or fails. *)
Theorem unique_ids_kept (c : collection) (id : string) (upd : TodoUpdate)
    (fresh : ObjectId) (todo : Todo) :
  unique_ids c →
  unique_ids (get_todo id c).2
  ∧ unique_ids (update_todo id upd c).2
  ∧ unique_ids (delete_todo id c).2
  ∧ unique_ids (create_todo fresh todo c).2.
Proof.
  intros Huniq. split; [by rewrite get_todo_state |]. split; [| split].
  - destruct (parse_ObjectId id) as [oid |] eqn:Hid.
    + rewrite (update_todo_state _ _ _ _ Hid). unfold unique_ids.
      by rewrite stored_ids_update_first by apply apply_set_id.
    + by rewrite (update_todo_invalid _ _ _ Hid).
  - destruct (parse_ObjectId id) as [oid |] eqn:Hid.
    + rewrite (delete_todo_state _ _ _ Hid).
      eapply sublist_NoDup; [exact Huniq | apply stored_ids_delete_first].
    + by rewrite (delete_todo_invalid _ _ Hid).
  - destruct (Store.find_first (VOid fresh) c) as [d |] eqn:Hd.
    + by rewrite create_todo_duplicate by congruence.
    + rewrite (create_todo_fresh _ _ _ Hd). by apply unique_ids_snoc.
Qed.

Lemma unique_ids_kept_witness :
  unique_ids one_todo
  ∧ unique_ids (create_todo oid_other milk one_todo).2
  ∧ unique_ids (create_todo oid_sample milk one_todo).2.
Proof.
  assert (Huniq : unique_ids one_todo).
  { unfold unique_ids. apply (bool_decide_unpack _). by vm_compute. }
  split; [exact Huniq |]. split.
  - apply (unique_ids_kept one_todo sample_id oat_milk oid_other milk Huniq).
  - apply (unique_ids_kept one_todo sample_id oat_milk oid_sample milk Huniq).
Defined.

(** X6. The handlers keep the stored documents in the shape [create_todo]
    writes them in: if every document holds the three content fields and
    nothing else, so does every document after [create_todo], [update_todo]
    or [delete_todo]. *)
Theorem todo_shape_kept (c : collection) (id : string) (upd : TodoUpdate)
    (fresh : ObjectId) (todo : Todo) :
  Forall todo_shaped c →
  Forall todo_shaped (create_todo fresh todo c).2
  ∧ Forall todo_shaped (update_todo id upd c).2
  ∧ Forall todo_shaped (delete_todo id c).2.
Proof.
  intros Hshape. split; [| split].
  - destruct (Store.find_first (VOid fresh) c) as [d |] eqn:Hd.
    + by rewrite create_todo_duplicate by congruence.
    + rewrite (create_todo_fresh _ _ _ Hd). apply Forall_app.
      split; [exact Hshape |]. apply Forall_singleton.
      by exists (Todo_title todo), (Todo_description todo),
        (Todo_deadline todo).
  - destruct (parse_ObjectId id) as [oid |] eqn:Hid.
    + rewrite (update_todo_state _ _ _ _ Hid).
      apply Forall_update_first; [| exact Hshape].
      intros d Hdid Hd. rewrite (apply_set_shaped upd d oid Hdid Hd).
      by exists (TodoUpdate_title upd), (TodoUpdate_description upd),
        (TodoUpdate_deadline upd).
    + by rewrite (update_todo_invalid _ _ _ Hid).
  - destruct (parse_ObjectId id) as [oid |] eqn:Hid.
    + rewrite (delete_todo_state _ _ _ Hid). by apply Forall_delete_first.
    + by rewrite (delete_todo_invalid _ _ Hid).
Qed.

Lemma todo_shape_kept_witness :
  Forall todo_shaped one_todo
  ∧ Forall todo_shaped (update_todo sample_id oat_milk one_todo).2.
Proof.
  assert (Hshape : Forall todo_shaped one_todo).
  { apply Forall_singleton. by exists "Buy milk", "2%", "2024-01-01". }
  split; [exact Hshape |].
  apply (todo_shape_kept one_todo sample_id oat_milk oid_other milk Hshape).
Defined.

(** X7. On a document in that shape [update_todo] is a full replacement also
    in the store: the stored document afterwards holds the payload's three
    fields and nothing of the old content, and the returned record is those
    three fields together with the id. *)
Theorem update_replaces_document (c : collection) (id : string)
    (oid : ObjectId) (d : document) (todo : TodoUpdate) :
  parse_ObjectId id = Some oid →
  Store.find_first (VOid oid) c = Some d →
  todo_shaped d →
  (update_todo id todo c).1
  = Return (<["id" := VStr (str_ObjectId oid)]>
              (content_fields (TodoUpdate_title todo)
                 (TodoUpdate_description todo) (TodoUpdate_deadline todo)))
  ∧ Store.find_first (VOid oid) (update_todo id todo c).2
    = Some {| doc_id := VOid oid;
              doc_fields :=
                content_fields (TodoUpdate_title todo)
                  (TodoUpdate_description todo)
                  (TodoUpdate_deadline todo) |}.
Proof.
  intros Hid Hd Hshape. destruct (find_first_Some _ _ _ Hd) as [Hdid _].
  rewrite (update_todo_found _ _ _ _ _ Hid Hd). cbn [fst snd].
  rewrite find_first_update_first by apply apply_set_id.
  rewrite decide_True by reflexivity. rewrite Hd. cbn [fmap option_fmap option_map].
  rewrite (apply_set_shaped todo d oid Hdid Hshape). split; reflexivity.
Qed.

Lemma update_replaces_document_witness :
  parse_ObjectId sample_id = Some oid_sample
  ∧ Store.find_first (VOid oid_sample) one_todo
    = Some (new_document oid_sample milk)
  ∧ todo_shaped (new_document oid_sample milk)
  ∧ Store.find_first (VOid oid_sample)
      (update_todo sample_id oat_milk one_todo).2
    = Some (updated_document oid_sample oat_milk).
Proof.
  assert (Hshape : todo_shaped (new_document oid_sample milk)).
  { by exists "Buy milk", "2%", "2024-01-01". }
  split; [reflexivity |]. split; [reflexivity |]. split; [exact Hshape |].
  destruct (update_replaces_document one_todo sample_id oid_sample
              (new_document oid_sample milk) oat_milk eq_refl eq_refl Hshape)
    as [_ Hstored].
  exact Hstored.
Defined.

(** X8. When every stored document is in that shape, every record that
    [get_todos] lists and every record that [get_todo] returns consists of
    exactly the four fields [id], [title], [description] and [deadline],
    all of them strings. *)
Theorem records_follow_schema (c : collection) :
  Forall todo_shaped c →
  (∀ rs : list dict,
     (get_todos c).1 = Return rs → Forall follows_schema rs)
  ∧ (∀ (id : string) (r : dict),
       (get_todo id c).1 = Return r → follows_schema r).
Proof.
  intros Hshape.
  assert (Hrec : ∀ d, d ∈ c → follows_schema (public_record d)).
  { intros d Hd. rewrite Forall_forall in Hshape.
    destruct (public_record_shaped d (Hshape d Hd)) as (t & de & dl & E).
    by exists (py_str (doc_id d)), t, de, dl. }
  split.
  - intros rs. rewrite get_todos_run. intros [= <-].
    apply Forall_fmap, Forall_forall. exact Hrec.
  - intros id r Hrun. destruct (parse_ObjectId id) as [oid |] eqn:Hid.
    + destruct (Store.find_first (VOid oid) c) as [d |] eqn:Hd.
      * rewrite (get_todo_found _ _ _ _ Hid Hd) in Hrun.
        injection Hrun as <-. apply Hrec.
        by destruct (find_first_Some _ _ _ Hd).
      * by rewrite (get_todo_missing _ _ _ Hid Hd) in Hrun.
    + by rewrite (get_todo_invalid _ _ Hid) in Hrun.
Qed.

Lemma records_follow_schema_witness :
  Forall todo_shaped one_todo
  ∧ (get_todo sample_id one_todo).1
    = Return (public_record (new_document oid_sample milk))
  ∧ follows_schema (public_record (new_document oid_sample milk)).
Proof.
  assert (Hshape : Forall todo_shaped one_todo).
  { apply Forall_singleton. by exists "Buy milk", "2%", "2024-01-01". }
  split; [exact Hshape |]. split; [reflexivity |].
  destruct (records_follow_schema one_todo Hshape) as (_ & Hget).
  apply (Hget sample_id). reflexivity.
Defined.

(** ** How the handlers compose *)

(** X9. The body [create_todo] answers with is the body a following
    [get_todo] under the returned id answers with: the assigned id in string
    form and the three content fields of the payload, nothing else. *)
Theorem create_response_is_get_response (c : collection) (fresh : ObjectId)
    (todo : Todo) :
  generated fresh →
  Store.find_first (VOid fresh) c = None →
  let r := <["id" := VStr (str_ObjectId fresh)]>
             (content_fields (Todo_title todo) (Todo_description todo)
                (Todo_deadline todo)) in
  (create_todo fresh todo c).1 = Return r
  ∧ get_todo (str_ObjectId fresh) (create_todo fresh todo c).2
    = (Return r, (create_todo fresh todo c).2).
Proof.
  intros Hgen Hfree r. rewrite (create_todo_fresh _ _ _ Hfree). cbn [fst snd].
  split; [reflexivity |].
  rewrite (get_todo_found (str_ObjectId fresh) fresh _
             (new_document fresh todo)).
  - reflexivity.
  - by apply parse_str_ObjectId.
  - rewrite find_first_app, Hfree. cbn [new_document doc_id].
    by rewrite decide_True.
Qed.

Lemma create_response_is_get_response_witness :
  generated oid_other
  ∧ Store.find_first (VOid oid_other) one_todo = None
  ∧ get_todo other_id (create_todo oid_other milk one_todo).2
    = (Return (<["id" := VStr other_id]>
                 (content_fields "Buy milk" "2%" "2024-01-01")),
       (create_todo oid_other milk one_todo).2).
Proof.
  split; [reflexivity |]. split; [reflexivity |].
  apply (create_response_is_get_response one_todo oid_other milk);
    reflexivity.
Defined.

(** X10. After a successful [create_todo], [get_todos] lists one record
    more: the records it listed before together with the record
    [create_todo] returned, whatever the position the store gives the new
    document. *)
Theorem create_then_list (c : collection) (fresh : ObjectId) (todo : Todo) :
  Store.find_first (VOid fresh) c = None →
  ∃ (rs rs' : list dict) (r : dict),
    (get_todos c).1 = Return rs
    ∧ (create_todo fresh todo c).1 = Return r
    ∧ (get_todos (create_todo fresh todo c).2).1 = Return rs'
    ∧ rs' ≡ₚ r :: rs
    ∧ length rs' = S (length rs).
Proof.
  intros Hfree.
  exists (public_record <$> c),
    (public_record <$> (c ++ [new_document fresh todo])),
    (public_record (new_document fresh todo)).
  rewrite (create_todo_fresh _ _ _ Hfree), !get_todos_run. cbn [fst snd].
  split; [reflexivity |]. split; [reflexivity |]. split; [reflexivity |].
  rewrite fmap_app. cbn [fmap list_fmap]. split.
  - symmetry. apply Permutation_cons_append.
  - rewrite length_app. cbn. lia.
Qed.

Lemma create_then_list_witness :
  Store.find_first (VOid oid_other) one_todo = None
  ∧ ∃ (rs rs' : list dict) (r : dict),
      (get_todos one_todo).1 = Return rs
      ∧ (create_todo oid_other milk one_todo).1 = Return r
      ∧ (get_todos (create_todo oid_other milk one_todo).2).1 = Return rs'
      ∧ rs' ≡ₚ r :: rs
      ∧ length rs' = S (length rs).
Proof.
  split; [reflexivity |].
  apply (create_then_list one_todo oid_other milk). reflexivity.
Defined.

(** X11. [update_todo] is idempotent: run a second time with the same
    identifier and payload on the collection the first run left, it ends the
    same way (the same record or the same error) and leaves the collection
    as the first run left it. *)
Theorem update_todo_idempotent (id : string) (todo : TodoUpdate)
    (c : collection) :
  update_todo id todo (update_todo id todo c).2 = update_todo id todo c.
Proof.
  set (upd := Store.apply_set (dict_of_TodoUpdate todo)).
  destruct (parse_ObjectId id) as [oid |] eqn:Hid.
  2: { rewrite (update_todo_invalid id todo c Hid). cbn [snd].
       by apply update_todo_invalid. }
  destruct (Store.find_first (VOid oid) c) as [d |] eqn:Hd.
  2: { rewrite (update_todo_missing id oid todo c Hid Hd). cbn [snd].
       by apply update_todo_missing with (oid := oid). }
  rewrite (update_todo_found id oid todo c d Hid Hd). cbn [snd]. fold upd.
  assert (Hd' : Store.find_first (VOid oid)
                  (Store.update_first (VOid oid) upd c) = Some (upd d)).
  { rewrite find_first_update_first by apply apply_set_id.
    rewrite decide_True by reflexivity. by rewrite Hd. }
  rewrite (update_todo_found id oid todo _ (upd d) Hid Hd'). fold upd.
  subst upd. rewrite apply_set_idem.
  rewrite update_first_idem; [reflexivity | apply apply_set_id |].
  intros e. apply apply_set_idem.
Qed.

(** X12. The record [update_todo] returns is the record a following
    [get_todo] under the same identifier returns. *)
Theorem update_response_is_get_response (id : string) (todo : TodoUpdate)
    (c : collection) (r : dict) :
  (update_todo id todo c).1 = Return r →
  get_todo id (update_todo id todo c).2
  = (Return r, (update_todo id todo c).2).
Proof.
  intros Hrun. destruct (parse_ObjectId id) as [oid |] eqn:Hid.
  2: { by rewrite (update_todo_invalid _ _ _ Hid) in Hrun. }
  destruct (Store.find_first (VOid oid) c) as [d |] eqn:Hd.
  2: { by rewrite (update_todo_missing _ _ _ _ Hid Hd) in Hrun. }
  rewrite (update_todo_found id oid todo c d Hid Hd) in Hrun |- *.
  injection Hrun as <-. cbn [snd].
  apply get_todo_found with (oid := oid); [exact Hid |].
  rewrite find_first_update_first by apply apply_set_id.
  rewrite decide_True by reflexivity. by rewrite Hd.
Qed.

Lemma update_response_is_get_response_witness :
  (update_todo sample_id oat_milk two_todos).1
  = Return (<["id" := VStr sample_id]>
              (content_fields "Buy oat milk" "2%" "2024-01-02"))
  ∧ get_todo sample_id (update_todo sample_id oat_milk two_todos).2
    = (Return (<["id" := VStr sample_id]>
                 (content_fields "Buy oat milk" "2%" "2024-01-02")),
       (update_todo sample_id oat_milk two_todos).2).
Proof.
  split; [reflexivity |].
  apply (update_response_is_get_response sample_id oat_milk two_todos).
  reflexivity.
Defined.

(** X13. [update_todo] never adds, removes or reorders documents and never
    changes an identifier: the sequence of stored identifiers is the same
    afterwards, whatever the identifier string and the payload. *)
Theorem update_todo_keeps_ids (id : string) (todo : TodoUpdate)
    (c : collection) :
  stored_ids (update_todo id todo c).2 = stored_ids c
  ∧ length (update_todo id todo c).2 = length c.
Proof.
  assert (Hids : stored_ids (update_todo id todo c).2 = stored_ids c).
  { destruct (parse_ObjectId id) as [oid |] eqn:Hid.
    - rewrite (update_todo_state _ _ _ _ Hid).
      apply stored_ids_update_first, apply_set_id.
    - by rewrite (update_todo_invalid _ _ _ Hid). }
  split; [exact Hids |].
  apply (f_equal length) in Hids. unfold stored_ids in Hids.
  by rewrite !length_fmap in Hids.
Qed.

(** X14. [update_todo] sets the three content fields and nothing else: every
    other field of the matching document shows in the returned record with
    the value it had before. *)
Theorem update_todo_keeps_other_fields (c : collection) (id : string)
    (oid : ObjectId) (d : document) (todo : TodoUpdate) (k : string) :
  parse_ObjectId id = Some oid →
  Store.find_first (VOid oid) c = Some d →
  k ∉ content_keys →
  ∃ r r' : dict,
    (get_todo id c).1 = Return r
    ∧ (update_todo id todo c).1 = Return r'
    ∧ r' !! k = r !! k.
Proof.
  intros Hid Hd Hk.
  exists (public_record d),
    (public_record (Store.apply_set (dict_of_TodoUpdate todo) d)).
  rewrite (get_todo_found _ _ _ _ Hid Hd),
    (update_todo_found _ _ _ _ _ Hid Hd).
  split; [reflexivity |]. split; [reflexivity |].
  unfold content_keys in Hk. rewrite !not_elem_of_cons in Hk.
  destruct Hk as (Ht & Hde & Hdl & _).
  destruct (decide (k = "id")) as [-> | Hkid].
  { by rewrite !public_record_id. }
  destruct (decide (k = "_id")) as [-> | Hknative].
  { by rewrite !public_record_no_native_id. }
  rewrite !public_record_field by done. cbn [Store.apply_set doc_fields].
  rewrite lookup_union_r; [reflexivity |].
  unfold dict_of_TodoUpdate. by rewrite !lookup_insert_ne, lookup_empty.
Qed.

Lemma update_todo_keeps_other_fields_witness :
  parse_ObjectId sample_id = Some oid_sample
  ∧ Store.find_first (VOid oid_sample) tagged_todo = Some tagged_document
  ∧ ("owner" ∉ content_keys)
  ∧ ∃ r r' : dict,
      (get_todo sample_id tagged_todo).1 = Return r
      ∧ (update_todo sample_id oat_milk tagged_todo).1 = Return r'
      ∧ r' !! "owner" = r !! "owner".
Proof.
  assert (Hk : "owner" ∉ content_keys).
  { apply (bool_decide_unpack _). by vm_compute. }
  split; [reflexivity |]. split; [reflexivity |]. split; [exact Hk |].
  apply (update_todo_keeps_other_fields tagged_todo sample_id oid_sample
           tagged_document oat_milk "owner"); [reflexivity .. | exact Hk].
Defined.

(** X15. Creating a todo and deleting it under the returned id gives back
    the collection as it was before the two calls. *)
Theorem create_then_delete_restores (c : collection) (fresh : ObjectId)
    (todo : Todo) :
  generated fresh →
  Store.find_first (VOid fresh) c = None →
  ∃ r : dict,
    (create_todo fresh todo c).1 = Return r
    ∧ r !! "id" = Some (VStr (str_ObjectId fresh))
    ∧ delete_todo (str_ObjectId fresh) (create_todo fresh todo c).2
      = (Return delete_message, c).
Proof.
  intros Hgen Hfree. exists (public_record (new_document fresh todo)).
  rewrite (create_todo_fresh _ _ _ Hfree). cbn [fst snd].
  split; [reflexivity |]. split; [apply public_record_id |].
  rewrite (delete_todo_found (str_ObjectId fresh) fresh _
             (new_document fresh todo)).
  - by rewrite delete_first_snoc.
  - by apply parse_str_ObjectId.
  - rewrite find_first_app, Hfree. cbn [new_document doc_id].
    by rewrite decide_True.
Qed.

Lemma create_then_delete_restores_witness :
  generated oid_other
  ∧ Store.find_first (VOid oid_other) one_todo = None
  ∧ ∃ r : dict,
      (create_todo oid_other milk one_todo).1 = Return r
      ∧ r !! "id" = Some (VStr other_id)
      ∧ delete_todo other_id (create_todo oid_other milk one_todo).2
        = (Return delete_message, one_todo).
Proof.
  split; [reflexivity |]. split; [reflexivity |].
  apply (create_then_delete_restores one_todo oid_other milk); reflexivity.
Defined.

(** X16. In a collection without duplicate identifiers, every record that
    [get_todos] lists for a document with a generated object id can be
    fetched with [get_todo] under the id the record shows, and [get_todo]
    returns that very record. *)
Theorem listed_record_is_fetchable (c : collection) (i : nat) (d : document)
    (oid : ObjectId) :
  unique_ids c →
  c !! i = Some d →
  doc_id d = VOid oid →
  generated oid →
  ∃ (rs : list dict) (r : dict),
    (get_todos c).1 = Return rs
    ∧ rs !! i = Some r
    ∧ r !! "id" = Some (VStr (str_ObjectId oid))
    ∧ get_todo (str_ObjectId oid) c = (Return r, c).
Proof.
  intros Huniq Hi Hdid Hgen.
  exists (public_record <$> c), (public_record d).
  rewrite get_todos_run. split; [reflexivity |].
  split; [by rewrite list_lookup_fmap, Hi |].
  split; [by rewrite public_record_id, Hdid |].
  apply get_todo_found with (oid := oid); [by apply parse_str_ObjectId |].
  rewrite <- Hdid. apply find_first_unique; [exact Huniq |].
  by apply list_elem_of_lookup_2 with (i := i).
Qed.

Lemma listed_record_is_fetchable_witness :
  unique_ids two_todos
  ∧ two_todos !! 1 = Some (new_document oid_other milk)
  ∧ generated oid_other
  ∧ ∃ (rs : list dict) (r : dict),
      (get_todos two_todos).1 = Return rs
      ∧ rs !! 1 = Some r
      ∧ r !! "id" = Some (VStr other_id)
      ∧ get_todo other_id two_todos = (Return r, two_todos).
Proof.
  assert (Huniq : unique_ids two_todos).
  { unfold unique_ids. apply (bool_decide_unpack _). by vm_compute. }
  split; [exact Huniq |]. split; [reflexivity |]. split; [reflexivity |].
  apply (listed_record_is_fetchable two_todos 1
           (new_document oid_other milk) oid_other Huniq); reflexivity.
Defined.

(** X17. In a collection whose identifiers are object ids without
    duplicates, the ids of the records [get_todos] lists are pairwise
    distinct: the public id tells the listed records apart. *)
Theorem listed_ids_distinct (c : collection) :
  unique_ids c →
  object_ids c →
  ∃ rs : list dict,
    (get_todos c).1 = Return rs ∧ NoDup (record_ids rs).
Proof.
  intros Huniq Hoids. exists (public_record <$> c).
  rewrite get_todos_run. split; [reflexivity |].
  unfold record_ids. rewrite <- list_fmap_compose.
  apply NoDup_fmap_2_strong.
  - intros d e Hd He. cbn. rewrite !public_record_id. intros [= Hstr].
    unfold object_ids in Hoids. rewrite Forall_forall in Hoids.
    destruct (Hoids d Hd) as [a Ha], (Hoids e He) as [b Hb].
    rewrite Ha, Hb in Hstr. cbn in Hstr. apply hexlify_inj in Hstr.
    assert (Hids : doc_id d = doc_id e) by congruence.
    pose proof (find_first_unique c d Huniq Hd) as Fd.
    pose proof (find_first_unique c e Huniq He) as Fe.
    rewrite Hids in Fd. congruence.
  - unfold unique_ids, stored_ids in Huniq. by apply NoDup_fmap_1 in Huniq.
Qed.

Lemma listed_ids_distinct_witness :
  unique_ids two_todos
  ∧ object_ids two_todos
  ∧ ∃ rs : list dict,
      (get_todos two_todos).1 = Return rs ∧ NoDup (record_ids rs).
Proof.
  assert (Huniq : unique_ids two_todos).
  { unfold unique_ids. apply (bool_decide_unpack _). by vm_compute. }
  assert (Hoids : object_ids two_todos).
  { repeat constructor; by eexists. }
  split; [exact Huniq |]. split; [exact Hoids |].
  apply (listed_ids_distinct two_todos Huniq Hoids).
Defined.
